(** * Provider adapters: a shallow embedding of [utils/agents/adapters.py]

    The adapters take a provider-agnostic list of chat turns, convert it
    to the vendor's request shape, perform one vendor call and flatten
    the vendor's response to a plain string.

    Python dictionaries that are used as keyword maps ([params],
    [**kwargs]) are [gmap string value]; exceptions are an explicit
    error type; the vendor call is an effect recorded in a trace, so
    that "before the vendor call" is a statement about that trace.
    Each class is a module named after it. *)

From stdpp Require Import base strings list gmap.

Local Open Scope Z_scope.

(** ** Data model *)

(** One content block of a caller's turn: text, or some other medium. *)
Inductive ContentBlock :=
  | Text (value : string)
  | Media (kind : string) (payload : string).

(** The [content] of a turn: a plain string or a sequence of blocks. *)
Inductive Content :=
  | Plain (s : string)
  | Parts (bs : list ContentBlock).

(** A caller's message, the dict [{'role': ..., 'content': ...}].
    [role] is what [m.get('role')] returns: [None] when the key is
    missing. *)
Record Message := { role : option string; content : Content }.

(** An Anthropic content block, the dict [{'type': ..., ...}];
    [TextBlock t] is [{'type': 'text', 'text': t}]. *)
Inductive Block :=
  | TextBlock (text : string)
  | OtherBlock (type : string) (source : string).

(** An entry of the Anthropic history,
    [{'role': ..., 'content': [...]}]. *)
Record HistoryEntry := { h_role : string; h_content : list Block }.

(** A Gemini [contents] entry in the role/parts shape. *)
Record GeminiContent := { g_role : string; g_parts : list string }.

(** Values that occur in keyword maps. *)
Inductive value :=
  | VNone
  | VStr (s : string)
  | VInt (n : Z)
  | VBool (b : bool)
  | VMessages (ms : list Message)
  | VBlocks (bs : list Block)
  | VHistory (h : list HistoryEntry).

Global Instance ContentBlock_eq_dec : EqDecision ContentBlock.
Proof. solve_decision. Defined.
Global Instance Content_eq_dec : EqDecision Content.
Proof. solve_decision. Defined.
Global Instance Message_eq_dec : EqDecision Message.
Proof. solve_decision. Defined.
Global Instance Block_eq_dec : EqDecision Block.
Proof. solve_decision. Defined.
Global Instance HistoryEntry_eq_dec : EqDecision HistoryEntry.
Proof. solve_decision. Defined.
Global Instance GeminiContent_eq_dec : EqDecision GeminiContent.
Proof. solve_decision. Defined.
Global Instance value_eq_dec : EqDecision value.
Proof. solve_decision. Defined.

(** Exceptions: the three the adapters raise themselves, the
    interpreter's errors for a repeated keyword and an empty list, and
    whatever a vendor call raises. *)
Inductive exn :=
  | ValueError (msg : string)
  | ImportError (msg : string)
  | TypeError (msg : string)
  | IndexError (msg : string)
  | VendorError (msg : string).

(** *** Vendor responses *)

(** [{choices: [{message: {content}}]}] *)
Record OpenAIChoice := { message_content : string }.
Record OpenAIResponse := { choices : list OpenAIChoice }.

(** A block of an Anthropic [Message]: [rb_type] is
    [getattr(c, 'type', None)]; [rb_text] is [c.text], which the
    adapter reads for the blocks typed ['text'] only, and which those
    blocks have. *)
Record RespBlock := { rb_type : option string; rb_text : string }.
Record AnthropicMessage := { resp_content : list RespBlock }.

(** A Gemini response; every attribute is read with [getattr] and a
    default, so each may be missing or [None]. *)
Record GeminiPart := { part_text : option string }.
Record GeminiRespContent := { parts : option (list GeminiPart) }.
Record GeminiCandidate := { cand_content : option GeminiRespContent }.
Record GeminiResponse :=
  { resp_text : option string; candidates : option (list GeminiCandidate) }.

(** *** Vendor requests *)

(** [generate_content(model=..., contents=..., config=...)]; the config
    is the object that the SDK's [GenerateContentConfig] returned, seen
    as its fields. *)
Record GeminiRequest :=
  { req_model : string;
    req_contents : list GeminiContent;
    req_config : gmap string value }.

Inductive VendorCall :=
  | OpenAICall (params : gmap string value)
  | AnthropicCall (params : gmap string value)
  | GeminiCall (req : GeminiRequest).

(** The entry points of the vendors' SDKs, as opaque functions: the
    three request calls, and the constructor of
    [genai_types.GenerateContentConfig], which validates the keywords
    it is given and either refuses them or returns the config object. *)
Record Vendors :=
  { ChatCompletion_create : gmap string value → exn + OpenAIResponse;
    messages_create : gmap string value → exn + AnthropicMessage;
    generate_content : GeminiRequest → exn + GeminiResponse;
    config_class : gmap string value → exn + gmap string value }.

(** The functions imported from [.messages]. Their code is not part of
    this file; the adapters are verified for every implementation.
    An argument of [normalize_messages] is [None] when the call site
    leaves it to the default. *)
Record MessagesModule :=
  { normalize_messages :
      list Message → option bool → option bool → option bool →
      exn + list Message;
    to_antrophic : Message → list Block;
    to_gemini_messages :
      list Message → exn + (option string * list GeminiContent) }.

(** ** Python idioms *)

(** [x or d] on lists: [d] when [x] is empty. *)
Definition py_or {A} (x d : list A) : list A :=
  match x with [] => d | _ :: _ => x end.

(** [sep.join(l)] *)
Fixpoint str_join (sep : string) (l : list string) : string :=
  match l with
  | [] => ""
  | [x] => x
  | x :: rest => x +:+ sep +:+ str_join sep rest
  end.

(** Truthiness of an optional string, [if text:]. *)
Definition truthy (o : option string) : bool :=
  match o with
  | Some s => bool_decide (s ≠ "")
  | None => false
  end.

(** [d.update(kw)]: the entries of [kw] replace those of [d]. *)
Definition dict_update (d kw : gmap string value) : gmap string value :=
  kw ∪ d.

(** ** Effects: errors and the trace of vendor calls *)

Definition Trace := list VendorCall.
Definition M (A : Type) : Type := Trace → (exn + A) * Trace.

Global Instance M_ret : MRet M := λ A a tr, (inr a, tr).
Global Instance M_bind : MBind M := λ A B k m tr,
  match m tr with
  | (inl e, tr') => (inl e, tr')
  | (inr a, tr') => k a tr'
  end.

Definition raise {A} (e : exn) : M A := λ tr, (inl e, tr).
Definition lift {A} (r : exn + A) : M A := λ tr, (r, tr).

(** One vendor call: the request is appended to the trace, the vendor
    answers or raises. *)
Definition call_vendor {Req Resp} (tag : Req → VendorCall)
    (f : Req → exn + Resp) (rq : Req) : M Resp :=
  λ tr, (f rq, tr ++ [tag rq]).

(** The turns that are not system turns. *)
Definition non_system (m : Message) : Prop := role m ≠ Some "system".
Global Instance non_system_dec m : Decision (non_system m).
Proof. unfold non_system. apply _. Defined.

(** The last system turn of a conversation, if any. *)
Definition last_system (messages : list Message) : option Message :=
  last (filter (λ m, role m = Some "system") messages).

(** ** AnthropicAdapter *)

Module AnthropicAdapter.

(** [client] is [anthropic.Anthropic(api_key=...)], kept as its key. *)
Record t := { client : string; model : string }.

Definition default_model : string := "claude-4-sonnet-20250514".

Definition __init__ (api_key : string) (model : string) : t :=
  {| client := api_key; model := model |}.

Definition empty_text : list Block := [TextBlock ""].

Section Methods.
Variable V : Vendors.
Variable H : MessagesModule.

(** The dict appended to [history] for a non-system message. *)
Definition history_entry (m : Message) : HistoryEntry :=
  {| h_role := if decide (role m = Some "user") then "user" else "assistant";
     h_content := py_or (to_antrophic H m) empty_text |}.

(** One iteration of [for m in messages] over [(system, history)]. *)
Definition split_step (st : option (list Block) * list HistoryEntry)
    (m : Message) : option (list Block) * list HistoryEntry :=
  let '(system, history) := st in
  if decide (role m = Some "system")
  then (Some (py_or (to_antrophic H m) empty_text), history)
  else (system, history ++ [history_entry m]).

Definition _split (messages : list Message)
    : option (list Block) * list HistoryEntry :=
  foldl split_step (None, []) messages.

(** The [params] dict literal of [complete]. *)
Definition base_params (self : t) (system : option (list Block))
    (messages : list HistoryEntry) (max_output_tokens : Z)
    : gmap string value :=
  {[ "model" := VStr (model self);
     "system" := from_option VBlocks VNone system;
     "messages" := VHistory messages;
     "max_tokens" := VInt max_output_tokens ]}.

(** [''.join(c.text for c in resp.content if getattr(c, 'type', None) == 'text')] *)
Definition response_text (resp : AnthropicMessage) : string :=
  str_join "" (rb_text <$> filter (λ c, rb_type c = Some "text") (resp_content resp)).

Definition complete (self : t) (messages : list Message)
    (max_output_tokens : Z) (kwargs : gmap string value) : M string :=
  let '(system, messages) := _split messages in
  let params := base_params self system messages max_output_tokens in
  let params := dict_update params kwargs in
  resp ← call_vendor AnthropicCall (messages_create V) params;
  mret (response_text resp).

End Methods.
End AnthropicAdapter.

(** ** OpenAIAdapter and LocalAdapter *)

(** The library-level configuration of the [openai] module, which the
    constructors assign to. *)
Record OpenAIConfig :=
  { openai_api_key : string;
    openai_organization : option string;
    openai_api_base : option string }.

Module OpenAIAdapter.

Record t := { model : string; _allow_system : bool }.

Definition default_model : string := "gpt-4o".

(** The constructor assigns the library configuration and returns the
    instance; [if organization:] and [if base_url:] are truthiness
    tests. *)
Definition __init__ (api_key : string) (model : string)
    (organization base_url : option string) (openai : OpenAIConfig)
    : t * OpenAIConfig :=
  let openai :=
    {| openai_api_key := api_key;
       openai_organization := openai_organization openai;
       openai_api_base := openai_api_base openai |} in
  let openai :=
    if truthy organization
    then {| openai_api_key := openai_api_key openai;
            openai_organization := organization;
            openai_api_base := openai_api_base openai |}
    else openai in
  let openai :=
    if truthy base_url
    then {| openai_api_key := openai_api_key openai;
            openai_organization := openai_organization openai;
            openai_api_base := base_url |}
    else openai in
  ({| model := model; _allow_system := true |}, openai).

(** The [params] dict literal, shared with [LocalAdapter]. *)
Definition base_params (self : t) (norm_messages : list Message)
    (max_output_tokens : Z) : gmap string value :=
  {[ "model" := VStr (model self);
     "messages" := VMessages norm_messages;
     "max_tokens" := VInt max_output_tokens ]}.

(** [resp['choices'][0]['message']['content']] *)
Definition response_text (resp : OpenAIResponse) : exn + string :=
  match choices resp with
  | [] => inl (IndexError "list index out of range")
  | c :: _ => inr (message_content c)
  end.

Section Methods.
Variable V : Vendors.
Variable H : MessagesModule.

Definition complete (self : t) (messages : list Message)
    (max_output_tokens : Z) (kwargs : gmap string value) : M string :=
  norm_messages ←
    lift (normalize_messages H messages (Some (_allow_system self)) None None);
  if decide (norm_messages = [])
  then raise (ValueError
    "After normalization, no valid user/assistant messages remain.")
  else
    let params := base_params self norm_messages max_output_tokens in
    let params := dict_update params kwargs in
    resp ← call_vendor OpenAICall (ChatCompletion_create V) params;
    lift (response_text resp).

End Methods.
End OpenAIAdapter.

Module LocalAdapter.

(** [class LocalAdapter(OpenAIAdapter)]: the same instance layout. *)
Definition t := OpenAIAdapter.t.

Definition default_base_url : string := "http://localhost:11434/v1".
Definition default_model : string := "llama3".
Definition default_api_key : string := "dummy".
Definition default_allow_system : bool := false.

Definition __init__ (base_url model api_key : string) (allow_system : bool)
    (openai : OpenAIConfig) : t * OpenAIConfig :=
  let '(self, openai) :=
    OpenAIAdapter.__init__ api_key model None (Some base_url) openai in
  ({| OpenAIAdapter.model := OpenAIAdapter.model self;
      OpenAIAdapter._allow_system := allow_system |}, openai).

Section Methods.
Variable V : Vendors.
Variable H : MessagesModule.

Definition complete (self : t) (messages : list Message)
    (max_output_tokens : Z) (kwargs : gmap string value) : M string :=
  norm_messages ←
    lift (normalize_messages H messages None (Some true)
            (Some (OpenAIAdapter._allow_system self)));
  if decide (norm_messages = [])
  then raise (ValueError
    "After normalization, no valid user/assistant messages remain for local model.")
  else
    let params :=
      OpenAIAdapter.base_params self norm_messages max_output_tokens in
    let params := dict_update params kwargs in
    resp ← call_vendor OpenAICall (ChatCompletion_create V) params;
    lift (OpenAIAdapter.response_text resp).

End Methods.
End LocalAdapter.

(** ** GoogleGeminiAdapter *)

Definition newline : string := String (Ascii.ascii_of_nat 10) "".

(** An imported module object; the optional import leaves [None]. *)
Record PyModule := { module_name : string }.

Module GoogleGeminiAdapter.

(** [genai.Client(api_key=...)] *)
Record Client := { library : PyModule; client_api_key : string }.
Record t := { client : Client; model : string }.

Definition default_model : string := "gemini-2.5-flash".

(** [genai] and [genai_types] are the module globals set by the guarded
    import; [api_key] is [None] or a string, tested with [not api_key]. *)
Definition __init__ (genai genai_types : option PyModule)
    (api_key : option string) (model : string) : exn + t :=
  match genai, genai_types with
  | Some g, Some _ =>
      match api_key with
      | Some k =>
          if decide (k = "")
          then inl (ValueError
            "Missing Gemini API key. Set GEMINI_API_KEY or pass api_key explicitly.")
          else inr {| client := {| library := g; client_api_key := k |};
                      model := model |}
      | None => inl (ValueError
            "Missing Gemini API key. Set GEMINI_API_KEY or pass api_key explicitly.")
      end
  | _, _ => inl (ImportError
      "google-genai is not installed. Run `uv pip install google-genai`.")
  end.

(** The inner loop [for part in getattr(content, 'parts', []) or []]. *)
Definition collect_parts (texts : list string) (candidate : GeminiCandidate)
    : list string :=
  let content := cand_content candidate in
  foldl (λ texts part,
           let text := part_text part in
           if truthy text then texts ++ [default "" text] else texts)
        texts (default [] (content ≫= parts)).

Definition response_text (resp : GeminiResponse) : string :=
  if truthy (resp_text resp) then default "" (resp_text resp)
  else
    let texts := foldl collect_parts [] (default [] (candidates resp)) in
    str_join newline texts.

Section Methods.
Variable V : Vendors.
Variable H : MessagesModule.

(** [genai_types.GenerateContentConfig(max_output_tokens=...,
    system_instruction=..., **kwargs)]: a keyword given both explicitly
    and through [**kwargs] is a [TypeError] of the call itself;
    otherwise the class is called with all the keywords. *)
Definition GenerateContentConfig (max_output_tokens : Z)
    (system_instruction : option string) (kwargs : gmap string value)
    : exn + gmap string value :=
  if decide (kwargs !! "max_output_tokens" = None
             ∧ kwargs !! "system_instruction" = None)
  then config_class V
         (kwargs ∪
            {[ "max_output_tokens" := VInt max_output_tokens;
               "system_instruction" :=
                 from_option VStr VNone system_instruction ]})
  else inl (TypeError "got multiple values for keyword argument").

Definition complete (self : t) (messages : list Message)
    (max_output_tokens : Z) (kwargs : gmap string value) : M string :=
  '(system_instruction, contents) ← lift (to_gemini_messages H messages);
  if decide (contents = [])
  then raise (ValueError
    "After normalization, no valid messages remain for Gemini.")
  else
    config ←
      lift (GenerateContentConfig max_output_tokens system_instruction kwargs);
    resp ← call_vendor GeminiCall (generate_content V)
             {| req_model := model self;
                req_contents := contents;
                req_config := config |};
    mret (response_text resp).

End Methods.
End GoogleGeminiAdapter.

(** ** Normalizer

    [normalize_messages] is imported from [.messages]; this module
    follows the specification's description of the Normalizer: its
    contract (section 4.1), the invariants of a normalized conversation
    (section 3) and the properties it is to have (section 8). *)

(** Python's [a.startswith(b)] on strings. *)
Fixpoint string_prefix (p s : string) : bool :=
  match p, s with
  | EmptyString, _ => true
  | String a p', String b s' => bool_decide (a = b) && string_prefix p' s'
  | String _ _, EmptyString => false
  end.

Module Normalizer.

(** Modelled from the spec: the role of a [ChatTurn], one of [system],
    [user], [assistant]; the type admits no other role, unrecognized
    roles being rejected before normalization. *)
Inductive Role := system | user | assistant.

(** Modelled from the spec: a [ChatTurn], a role and a content. *)
Record ChatTurn := { role : Role; content : Content }.

(** Modelled from the spec: the validation failure of the Normalizer. *)
Inductive error := EmptyConversationError.

Global Instance Role_eq_dec : EqDecision Role.
Proof. solve_decision. Defined.
Global Instance ChatTurn_eq_dec : EqDecision ChatTurn.
Proof. solve_decision. Defined.

(** Modelled from the spec: a content as a block sequence, a plain
    string counting as one text block. *)
Definition blocks_of (c : Content) : list ContentBlock :=
  match c with Plain s => [Text s] | Parts bs => bs end.

(** Modelled from the spec: the join policy of the scenario, where
    ["Be terse."] and ["Hi"] give ["Be terse.\nHi"]: two plain strings
    are joined by a newline; otherwise the block sequences are
    appended. *)
Definition join_content (a b : Content) : Content :=
  match a, b with
  | Plain x, Plain y => Plain (x +:+ newline +:+ y)
  | _, _ => Parts (blocks_of a ++ blocks_of b)
  end.

(** Modelled from the spec: "the resulting first user turn's content
    starts with the system content": the prefix relation, on plain
    strings and on block sequences. *)
Definition starts_with (sys c : Content) : bool :=
  match sys, c with
  | Plain p, Plain s => string_prefix p s
  | Parts _, Plain _ => false
  | _, Parts l => bool_decide (blocks_of sys `prefix_of` l)
  end.

(** Modelled from the spec: "the content of all system turns is
    concatenated (in original order)"; [None] without a system turn. *)
Definition system_content (turns : list ChatTurn) : option Content :=
  match content <$> filter (λ t, role t = system) turns with
  | [] => None
  | c :: rest => Some (foldl join_content c rest)
  end.

(** Modelled from the spec: a system turn "is dropped entirely". *)
Definition drop_system (turns : list ChatTurn) : list ChatTurn :=
  filter (λ t, role t ≠ system) turns.

(** Modelled from the spec: "at most one system turn exists
    (post-merge)": where system turns are kept, the first one carries
    the concatenated content [sys] and the later ones are taken out;
    the order of the other turns is preserved. *)
Fixpoint collapse_system (sys : Content) (turns : list ChatTurn)
    : list ChatTurn :=
  match turns with
  | [] => []
  | t :: rest =>
      if decide (role t = system)
      then {| role := system; content := sys |} :: drop_system rest
      else t :: collapse_system sys rest
  end.

(** Modelled from the spec: the system content is "prepended to the
    content" of a user turn, with "no double-merging of system
    content": a content that starts with it already is left as it
    is. *)
Definition merged_content (sys c : Content) : Content :=
  if starts_with sys c then c else join_content sys c.

(** Modelled from the spec: the concatenated system content is
    "prepended to the content of the next following user turn", which
    is the first user turn of the conversation ("the resulting first
    user turn's content starts with the system content"); the other
    turns stay as they are. [None] when there is no user turn. *)
Fixpoint merge_first_user (sys : Content) (turns : list ChatTurn)
    : option (list ChatTurn) :=
  match turns with
  | [] => None
  | t :: rest =>
      if decide (role t = user)
      then Some ({| role := user; content := merged_content sys (content t) |}
                   :: rest)
      else (t ::.) <$> merge_first_user sys rest
  end.

(** Modelled from the spec: the merge, with "if no user turn follows,
    it is prepended to a newly synthesized leading user turn". *)
Definition merge_system (sys : Content) (turns : list ChatTurn)
    : list ChatTurn :=
  match merge_first_user sys turns with
  | Some out => out
  | None => {| role := user; content := sys |} :: turns
  end.

(** Modelled from the spec: the three policy flags. With
    [mergeSystemIntoUser] the system content is merged into a user
    turn, and "a separate system turn is retained in addition" with
    [keepSystem], the system turns being dropped without it; without
    merging, [allowSystem] keeps the system turn and its absence drops
    it. A conversation without a system turn is left as it is. *)
Definition apply_policy (turns : list ChatTurn)
    (allowSystem mergeSystemIntoUser keepSystem : bool) : list ChatTurn :=
  match system_content turns with
  | None => turns
  | Some sys =>
      if mergeSystemIntoUser then
        merge_system sys
          (if keepSystem then collapse_system sys turns else drop_system turns)
      else if allowSystem then collapse_system sys turns
      else drop_system turns
  end.

(** Modelled from the spec: [normalize], which "fails with
    EmptyConversationError when, after filtering/merging, zero turns
    remain". *)
Definition normalize (turns : list ChatTurn)
    (allowSystem mergeSystemIntoUser keepSystem : bool)
    : error + list ChatTurn :=
  match apply_policy turns allowSystem mergeSystemIntoUser keepSystem with
  | [] => inl EmptyConversationError
  | out => inr out
  end.

(** Turns with plain text, for the examples. *)
Definition turn (r : Role) (s : string) : ChatTurn :=
  {| role := r; content := Plain s |}.



End Normalizer.

(** ** Sample inputs *)

(** Modelled from the spec: a [.messages] module for the examples.
    [to_antrophic] turns text into text blocks and degrades other media
    to an empty-text placeholder; the Gemini converter maps [assistant]
    to [model], extracts the system turn and keeps text parts only;
    normalization drops the system turns unless they are allowed. *)
Definition sample_blocks (c : Content) : list Block :=
  match c with
  | Plain s => [TextBlock s]
  | Parts bs =>
      (λ b, match b with Text v => TextBlock v | Media _ _ => TextBlock "" end)
        <$> bs
  end.

(** Modelled from the spec: the text parts of a content, for Gemini. *)
Definition sample_parts (c : Content) : list string :=
  match c with
  | Plain s => [s]
  | Parts bs =>
      omap (λ b, match b with Text v => Some v | Media _ _ => None end) bs
  end.

(** Modelled from the spec: see [sample_blocks]. *)
Definition sample_messages : MessagesModule :=
  {| normalize_messages := λ ms allow _ _,
       inr (if default true allow then ms else filter non_system ms);
     to_antrophic := λ m, sample_blocks (content m);
     to_gemini_messages := λ ms,
       inr (match last_system ms with
            | Some s => Some (str_join newline (sample_parts (content s)))
            | None => None
            end,
            (λ m, {| g_role := if decide (role m = Some "assistant")
                               then "model" else "user";
                     g_parts := sample_parts (content m) |})
              <$> filter non_system ms) |}.

Definition msg (r : string) (s : string) : Message :=
  {| role := Some r; content := Plain s |}.

(** A vendor that answers every request with fixed responses and
    accepts every config. *)
Definition fixed_vendors (o : OpenAIResponse) (a : AnthropicMessage)
    (g : GeminiResponse) : Vendors :=
  {| ChatCompletion_create := λ _, inr o;
     messages_create := λ _, inr a;
     generate_content := λ _, inr g;
     config_class := λ kw, inr kw |}.

(** ** The response flattening, as the specification words it *)

(** "Concatenation of all text-typed content blocks in the response, in
    order, with no separator." *)
Fixpoint text_concat (blocks : list RespBlock) : string :=
  match blocks with
  | [] => ""
  | c :: rest =>
      if decide (rb_type c = Some "text")
      then rb_text c +:+ text_concat rest
      else text_concat rest
  end.

(** The non-empty text parts of one candidate: the parts that carry a
    non-empty text, in order. *)
Definition candidate_texts (c : GeminiCandidate) : list string :=
  match cand_content c with
  | Some {| parts := Some ps |} =>
      omap (λ p, match part_text p with
                 | Some s => if decide (s = "") then None else Some s
                 | None => None
                 end) ps
  | _ => []
  end.

(** The non-empty text parts across all candidates, in order. *)
Definition all_text_parts (resp : GeminiResponse) : list string :=
  match candidates resp with
  | Some cs => concat (candidate_texts <$> cs)
  | None => []
  end.

(** "All text parts across all candidates, in order": every part that
    has a text, the empty text included. *)
Definition candidate_present_texts (c : GeminiCandidate) : list string :=
  match cand_content c with
  | Some {| parts := Some ps |} => omap part_text ps
  | _ => []
  end.

Definition present_texts (resp : GeminiResponse) : list string :=
  match candidates resp with
  | Some cs => concat (candidate_present_texts <$> cs)
  | None => []
  end.

(** ** The requests the adapters build *)

(** The request [AnthropicAdapter.complete] builds from the caller's
    messages: the base parameters, taken from [_split], updated with
    the caller's options. *)
Definition anthropic_request (H : MessagesModule) (self : AnthropicAdapter.t)
    (messages : list Message) (max_output_tokens : Z)
    (kwargs : gmap string value) : gmap string value :=
  dict_update
    (AnthropicAdapter.base_params self
       (AnthropicAdapter._split H messages).1
       (AnthropicAdapter._split H messages).2 max_output_tokens)
    kwargs.

(** The request of the OpenAI-compatible adapters for the normalized
    messages [norm]. *)
Definition openai_request (self : OpenAIAdapter.t) (norm : list Message)
    (max_output_tokens : Z) (kwargs : gmap string value)
    : gmap string value :=
  dict_update (OpenAIAdapter.base_params self norm max_output_tokens) kwargs.

(** The keywords that the Gemini adapter gives to the config class
    when the options name neither explicit keyword. *)
Definition gemini_config_keywords (system_instruction : option string)
    (max_output_tokens : Z) (kwargs : gmap string value)
    : gmap string value :=
  dict_update
    {[ "max_output_tokens" := VInt max_output_tokens;
       "system_instruction" := from_option VStr VNone system_instruction ]}
    kwargs.

(** The request of the Gemini adapter for the converted [contents] and
    the config object that the class returned. *)
Definition gemini_request (self : GoogleGeminiAdapter.t)
    (contents : list GeminiContent) (config : gmap string value)
    : GeminiRequest :=
  {| req_model := GoogleGeminiAdapter.model self;
     req_contents := contents;
     req_config := config |}.

(** The fallback extraction of the Gemini adapter, as the
    specification words it. *)
Definition gemini_fallback (resp : GeminiResponse) : string :=
  str_join newline (all_text_parts resp).

(** The outcome of a run that stops before any vendor call. *)
Definition raises_before_call (run : M string) (tr : Trace) : Prop :=
  ∃ msg, run tr = (inl (ValueError msg), tr).

(** Sample adapters, responses and vendors for the examples. *)
Definition claude : AnthropicAdapter.t :=
  AnthropicAdapter.__init__ "key" AnthropicAdapter.default_model.

Definition gpt : OpenAIAdapter.t :=
  {| OpenAIAdapter.model := "gpt-4o"; OpenAIAdapter._allow_system := true |}.

Definition llama : LocalAdapter.t :=
  {| OpenAIAdapter.model := "llama3"; OpenAIAdapter._allow_system := false |}.

Definition gemini : GoogleGeminiAdapter.t :=
  {| GoogleGeminiAdapter.client :=
       {| GoogleGeminiAdapter.library := {| module_name := "google.genai" |};
          GoogleGeminiAdapter.client_api_key := "key" |};
     GoogleGeminiAdapter.model := "gemini-2.5-flash" |}.

(** A text block, a tool-use block (its text is never read), a text
    block. *)
Definition hello_response : AnthropicMessage :=
  {| resp_content :=
       [ {| rb_type := Some "text"; rb_text := "Hel" |};
         {| rb_type := Some "tool_use"; rb_text := "ignored" |};
         {| rb_type := Some "text"; rb_text := "lo" |} ] |}.

(** No top-level text, one candidate with the parts [a] and [b]. *)
Definition parts_response : GeminiResponse :=
  {| resp_text := None;
     candidates := Some
       [ {| cand_content := Some
              {| parts := Some [ {| part_text := Some "a" |};
                                 {| part_text := Some "b" |} ] |} |} ] |}.

(** No top-level text, one candidate with the parts [a], the empty
    text, and [b]. *)
Definition gapped_response : GeminiResponse :=
  {| resp_text := None;
     candidates := Some
       [ {| cand_content := Some
              {| parts := Some [ {| part_text := Some "a" |};
                                 {| part_text := Some "" |};
                                 {| part_text := Some "b" |} ] |} |} ] |}.

Definition sample_vendors : Vendors :=
  fixed_vendors {| choices := [ {| message_content := "ok" |} ] |}
    hello_response parts_response.

(** ** The call of [complete] *)

(** [complete(self, messages, max_output_tokens, **kwargs)]: a keyword
    named like one of the three parameters is bound to that parameter
    (or refused as a second value for it), so the mapping [kwargs]
    that the body sees never holds these names. *)
Definition bound_kwargs (kwargs : gmap string value) : Prop :=
  kwargs !! "self" = None
  ∧ kwargs !! "messages" = None
  ∧ kwargs !! "max_output_tokens" = None.

(** A vendor whose config class knows three fields and refuses any
    other keyword, as a validating class does. *)
Definition strict_vendors : Vendors :=
  {| ChatCompletion_create := ChatCompletion_create sample_vendors;
     messages_create := messages_create sample_vendors;
     generate_content := generate_content sample_vendors;
     config_class := λ kw,
       if decide (map_Forall
                    (λ k _, k ∈ ["max_output_tokens"; "system_instruction";
                                 "temperature"]) kw)
       then inr kw
       else inl (VendorError "ValidationError: extra inputs are not permitted")
  |}.

(** A vendor that fails every request with [e]. *)
Definition failing_vendors (e : exn) : Vendors :=
  {| ChatCompletion_create := λ _, inl e;
     messages_create := λ _, inl e;
     generate_content := λ _, inl e;
     config_class := λ kw, inr kw |}.



(** The library configuration before any adapter was constructed. *)
Definition fresh_config : OpenAIConfig :=
  {| openai_api_key := "";
     openai_organization := None;
     openai_api_base := None |}.

(** ** Facts about the Python idioms and the effect monad *)

Lemma py_or_nonempty {A} (x d : list A) : d ≠ [] → py_or x d ≠ [].
Proof. by destruct x. Qed.

Lemma string_app_empty_r (s : string) : s +:+ "" = s.
Proof.
  induction s as [|a s IH]; [done|].
  change (String a (s +:+ "") = String a s). by rewrite IH.
Qed.

Lemma string_app_assoc (a b c : string) : (a +:+ b) +:+ c = a +:+ b +:+ c.
Proof.
  induction a as [|x a IH]; [done|].
  change (String x ((a +:+ b) +:+ c) = String x (a +:+ b +:+ c)).
  by rewrite IH.
Qed.

Lemma str_join_cons sep x l :
  str_join sep (x :: l) =
    match l with [] => x | _ :: _ => x +:+ sep +:+ str_join sep l end.
Proof. by destruct l. Qed.

(** Joining with the empty separator is plain concatenation. *)
Lemma str_join_empty_cons x l : str_join "" (x :: l) = x +:+ str_join "" l.
Proof.
  rewrite str_join_cons. destruct l; [|done].
  cbn [str_join]. by rewrite string_app_empty_r.
Qed.

Lemma dict_update_lookup_caller d kw k v :
  kw !! k = Some v → dict_update d kw !! k = Some v.
Proof. intros Hk. unfold dict_update. by apply lookup_union_Some_l. Qed.

Lemma dict_update_lookup_base d kw k :
  kw !! k = None → dict_update d kw !! k = d !! k.
Proof. intros Hk. unfold dict_update. by apply lookup_union_r. Qed.

(** Unfolds the binds of a run up to the vendor call. *)
Ltac run_monad := unfold mbind, M_bind, lift, raise, call_vendor.

(** ** AnthropicAdapter._split *)

Section SplitFacts.
Variable H : MessagesModule.
Abbreviation blocks_or_empty :=
  (λ m, py_or (to_antrophic H m) AnthropicAdapter.empty_text).

(** The loop started from any state: the history grows by the entries
    of the non-system turns, the system slot is overwritten by the
    last system turn. *)
Lemma split_loop msgs sys hist :
  foldl (AnthropicAdapter.split_step H) (sys, hist) msgs =
    (match last_system msgs with
     | Some s => Some (blocks_or_empty s)
     | None => sys
     end,
     hist ++ (AnthropicAdapter.history_entry H <$> filter non_system msgs)).
Proof.
  revert sys hist. induction msgs as [|m msgs IH]; intros sys hist.
  - simpl. by rewrite app_nil_r.
  - cbn [foldl]. unfold last_system, non_system, AnthropicAdapter.split_step at 2.
    rewrite !filter_cons.
    destruct (decide (role m = Some "system")) as [Hs|Hs].
    + rewrite IH. rewrite decide_False; [|by intros ?].
      unfold last_system, non_system. f_equal.
      rewrite last_cons.
      by destruct (last (filter (λ m0, role m0 = Some "system") msgs)).
    + rewrite IH. rewrite decide_True; [|done].
      unfold last_system, non_system. by rewrite <- app_assoc.
Qed.

Lemma split_spec msgs :
  AnthropicAdapter._split H msgs =
    (blocks_or_empty <$> last_system msgs,
     AnthropicAdapter.history_entry H <$> filter non_system msgs).
Proof.
  unfold AnthropicAdapter._split. rewrite split_loop. simpl.
  by destruct (last_system msgs).
Qed.

Lemma last_system_None msgs :
  last_system msgs = None ↔ Forall non_system msgs.
Proof.
  unfold last_system. rewrite last_None. split.
  - intros Hf. apply Forall_forall. intros m Hm Hs.
    assert (m ∈ filter (λ m, role m = Some "system") msgs) as Hin
      by by apply list_elem_of_filter.
    rewrite Hf in Hin. by apply not_elem_of_nil in Hin.
  - intros Hall. induction Hall as [|m l Hm Hl IH]; [done|].
    rewrite filter_cons. by rewrite decide_False.
Qed.

Lemma last_system_app_cons pre s post :
  role s = Some "system" → Forall non_system post →
  last_system (pre ++ s :: post) = Some s.
Proof.
  intros Hs Hpost. unfold last_system.
  rewrite filter_app, filter_cons, decide_True by done.
  apply last_system_None in Hpost. unfold last_system in Hpost.
  apply last_None in Hpost. rewrite Hpost. apply last_snoc.
Qed.

End SplitFacts.

(** C1 (amended): in [AnthropicAdapter._split] the history entries pair
    off, in order, with the turns whose role is not ['system']; an
    entry's role is ['user'] exactly when the turn's role is ['user'],
    and every other role (['assistant'], an unknown role, a missing
    role) becomes ['assistant']; no entry has the role ['system']. *)
Theorem split_role_coercion (H : MessagesModule) (msgs : list Message) :
  Forall2
    (λ m e, (role m = Some "user" → h_role e = "user")
            ∧ (role m ≠ Some "user" → h_role e = "assistant")
            ∧ h_role e ≠ "system")
    (filter non_system msgs) (AnthropicAdapter._split H msgs).2.
Proof.
  rewrite split_spec. cbn [snd].
  apply Forall2_fmap_r, Forall_Forall2_diag, Forall_forall.
  intros m _. simpl.
  destruct (decide (role m = Some "user")); repeat split; done.
Qed.

(** C1 (as stated) fails: a turn whose role is neither ['system'] nor
    ['assistant'] nor ['user'], or that has no role, becomes an
    ['assistant'] entry. *)
Lemma split_unknown_role_is_assistant :
  role (msg "tool" "42") ≠ Some "system"
  ∧ role (msg "tool" "42") ≠ Some "assistant"
  ∧ h_role <$> (AnthropicAdapter._split sample_messages [msg "tool" "42"]).2
    = ["assistant"]
  ∧ h_role <$> (AnthropicAdapter._split sample_messages
                  [{| role := None; content := Plain "hi" |}]).2
    = ["assistant"].
Proof. repeat split; done. Qed.

(** C5: for every conversation, the history of
    [AnthropicAdapter._split] has exactly one entry per non-system
    turn, in the same order; an entry's content is the converted block
    list, or the single empty-text block when the conversion is empty,
    and so is never empty; the system aggregation is [None] exactly
    when no system turn exists. *)
Theorem split_keeps_every_turn (H : MessagesModule) (msgs : list Message) :
  (AnthropicAdapter._split H msgs).2
    = AnthropicAdapter.history_entry H <$> filter non_system msgs
  ∧ length (AnthropicAdapter._split H msgs).2
    = length (filter non_system msgs)
  ∧ Forall2
      (λ m e, h_content e = match to_antrophic H m with
                            | [] => [TextBlock ""]
                            | b :: bs => b :: bs
                            end)
      (filter non_system msgs) (AnthropicAdapter._split H msgs).2
  ∧ Forall (λ e, h_content e ≠ []) (AnthropicAdapter._split H msgs).2
  ∧ ((AnthropicAdapter._split H msgs).1 = None ↔ Forall non_system msgs).
Proof.
  rewrite split_spec. cbn [fst snd]. repeat split.
  - by rewrite length_fmap.
  - apply Forall2_fmap_r, Forall_Forall2_diag, Forall_forall.
    intros m _. simpl. by destruct (to_antrophic H m).
  - apply Forall_fmap, Forall_forall. intros m _. simpl.
    by apply py_or_nonempty.
  - intros Hnone. apply last_system_None.
    by destruct (last_system msgs).
  - intros Hall. apply last_system_None in Hall. by rewrite Hall.
Qed.

(** ** AnthropicAdapter.complete *)

Section AnthropicComplete.
Variable V : Vendors.
Variable H : MessagesModule.

(** One run of [complete]: exactly one vendor call, with that request. *)
Lemma anthropic_complete_run self messages max_output_tokens kwargs tr :
  AnthropicAdapter.complete V H self messages max_output_tokens kwargs tr =
    (match messages_create V
             (anthropic_request H self messages max_output_tokens kwargs) with
     | inl e => inl e
     | inr resp => inr (AnthropicAdapter.response_text resp)
     end,
     tr ++ [AnthropicCall
              (anthropic_request H self messages max_output_tokens kwargs)]).
Proof.
  unfold AnthropicAdapter.complete, anthropic_request.
  destruct (AnthropicAdapter._split H messages) as [system history].
  cbn [fst snd]. run_monad.
  by destruct (messages_create V _).
Qed.

Lemma response_text_concat resp :
  AnthropicAdapter.response_text resp = text_concat (resp_content resp).
Proof.
  unfold AnthropicAdapter.response_text.
  induction (resp_content resp) as [|c cs IH]; [done|].
  rewrite filter_cons. cbn [text_concat]. case_decide.
  - rewrite fmap_cons, str_join_empty_cons. by rewrite IH.
  - done.
Qed.

End AnthropicComplete.

Lemma text_concat_app l1 l2 :
  text_concat (l1 ++ l2) = text_concat l1 +:+ text_concat l2.
Proof.
  induction l1 as [|c l1 IH]; [done|].
  cbn [app text_concat]. case_decide; [|done].
  by rewrite IH, string_app_assoc.
Qed.

(** C3: whatever the conversation and the options, when the vendor
    answers with [resp], [AnthropicAdapter.complete] returns
    [text_concat (resp_content resp)] after that one call; and
    [text_concat] is the concatenation without separator, in response
    order, of the texts of the blocks typed ['text']: it distributes
    over list append, is the block's text on a ['text'] block and is
    empty on a block of any other type (or of no type). *)
Theorem anthropic_complete_text (V : Vendors) (H : MessagesModule)
    (self : AnthropicAdapter.t) (messages : list Message)
    (max_output_tokens : Z) (kwargs : gmap string value) (tr : Trace)
    (resp : AnthropicMessage) :
  messages_create V (anthropic_request H self messages max_output_tokens kwargs)
    = inr resp →
  AnthropicAdapter.complete V H self messages max_output_tokens kwargs tr
    = (inr (text_concat (resp_content resp)),
       tr ++ [AnthropicCall
                (anthropic_request H self messages max_output_tokens kwargs)])
  ∧ (∀ l1 l2, text_concat (l1 ++ l2) = text_concat l1 +:+ text_concat l2)
  ∧ (∀ c, rb_type c = Some "text" → text_concat [c] = rb_text c)
  ∧ (∀ c, rb_type c ≠ Some "text" → text_concat [c] = "").
Proof.
  intros Hresp. repeat split.
  - rewrite anthropic_complete_run, Hresp. by rewrite response_text_concat.
  - apply text_concat_app.
  - intros c Hc. cbn [text_concat]. rewrite decide_True by done.
    apply string_app_empty_r.
  - intros c Hc. cbn [text_concat]. by rewrite decide_False.
Qed.

(** C3 at a response with a text block, a tool-use block and a text
    block: the result is ["Hello"]. *)
Lemma anthropic_complete_text_witness :
  (AnthropicAdapter.complete sample_vendors sample_messages claude
     [msg "user" "Hi"] 16 ∅ []).1 = inr "Hello".
Proof.
  destruct (anthropic_complete_text sample_vendors sample_messages claude
              [msg "user" "Hi"] 16 ∅ [] hello_response eq_refl) as [Hrun _].
  rewrite Hrun. reflexivity.
Defined.

(** C10: [complete] hands the caller's messages to [_split] as they are
    (its request is built from [_split messages], and nothing else of
    the [.messages] module is consulted); when the last system turn is
    [s], the system aggregation is the blocks of [s] alone, and the
    system turns before it leave no trace in the request. *)
Theorem anthropic_last_system_wins (V : Vendors) (H : MessagesModule)
    (self : AnthropicAdapter.t) (pre post : list Message) (s : Message)
    (max_output_tokens : Z) (kwargs : gmap string value) (tr : Trace) :
  role s = Some "system" → Forall non_system post →
  AnthropicAdapter._split H (pre ++ s :: post)
    = (Some (py_or (to_antrophic H s) AnthropicAdapter.empty_text),
       AnthropicAdapter.history_entry H <$> filter non_system (pre ++ post))
  ∧ AnthropicAdapter._split H (pre ++ s :: post)
    = AnthropicAdapter._split H (filter non_system pre ++ s :: post)
  ∧ (AnthropicAdapter.complete V H self (pre ++ s :: post)
       max_output_tokens kwargs tr).2
    = tr ++ [AnthropicCall
        (dict_update
           (AnthropicAdapter.base_params self
              (Some (py_or (to_antrophic H s) AnthropicAdapter.empty_text))
              (AnthropicAdapter.history_entry H
                 <$> filter non_system (pre ++ post))
              max_output_tokens)
           kwargs)]
  ∧ (∀ H', to_antrophic H' = to_antrophic H →
       AnthropicAdapter.complete V H' self (pre ++ s :: post)
         max_output_tokens kwargs tr
       = AnthropicAdapter.complete V H self (pre ++ s :: post)
           max_output_tokens kwargs tr).
Proof.
  intros Hs Hpost.
  assert (Hsplit : AnthropicAdapter._split H (pre ++ s :: post)
    = (Some (py_or (to_antrophic H s) AnthropicAdapter.empty_text),
       AnthropicAdapter.history_entry H <$> filter non_system (pre ++ post))).
  { rewrite split_spec, last_system_app_cons by done. cbn [fmap option_fmap option_map].
    f_equal. rewrite !filter_app, filter_cons.
    unfold non_system at 2. by rewrite decide_False by (by intros ?). }
  repeat split.
  - exact Hsplit.
  - rewrite Hsplit, split_spec.
    rewrite last_system_app_cons by done.
    cbn [fmap option_fmap option_map]. f_equal.
    rewrite !filter_app, !filter_cons. unfold non_system at 2 5.
    rewrite decide_False by (by intros ?).
    f_equal. f_equal. symmetry. by apply list_filter_filter_l.
  - rewrite anthropic_complete_run. cbn [snd]. unfold anthropic_request.
    by rewrite Hsplit.
  - intros H' Hto. rewrite !anthropic_complete_run. unfold anthropic_request.
    assert (AnthropicAdapter._split H' (pre ++ s :: post)
            = AnthropicAdapter._split H (pre ++ s :: post)) as ->; [|done].
    rewrite !split_spec. unfold AnthropicAdapter.history_entry. by rewrite Hto.
Qed.

(** C10 at a conversation with two system turns: the first one's text
    is gone, the second one's is the system aggregation. *)
Lemma anthropic_last_system_wins_witness :
  AnthropicAdapter._split sample_messages
    ([msg "system" "A"; msg "user" "Hi"]
       ++ msg "system" "B" :: [msg "assistant" "Yo"])
  = (Some [TextBlock "B"],
     [ {| h_role := "user"; h_content := [TextBlock "Hi"] |};
       {| h_role := "assistant"; h_content := [TextBlock "Yo"] |} ]).
Proof.
  destruct (anthropic_last_system_wins sample_vendors sample_messages claude
              [msg "system" "A"; msg "user" "Hi"] [msg "assistant" "Yo"]
              (msg "system" "B") 16 ∅ [] eq_refl
              ltac:(by repeat constructor)) as [Hsplit _].
  exact Hsplit.
Defined.

(** ** The runs of the other adapters *)

Section AdapterRuns.
Variable V : Vendors.
Variable H : MessagesModule.

Lemma openai_complete_empty self messages max_output_tokens kwargs tr :
  normalize_messages H messages (Some (OpenAIAdapter._allow_system self))
    None None = inr [] →
  raises_before_call
    (OpenAIAdapter.complete V H self messages max_output_tokens kwargs) tr.
Proof.
  intros Hn. eexists. unfold OpenAIAdapter.complete. run_monad.
  rewrite Hn. reflexivity.
Qed.

Lemma local_complete_empty self messages max_output_tokens kwargs tr :
  normalize_messages H messages None (Some true)
    (Some (OpenAIAdapter._allow_system self)) = inr [] →
  raises_before_call
    (LocalAdapter.complete V H self messages max_output_tokens kwargs) tr.
Proof.
  intros Hn. eexists. unfold LocalAdapter.complete. run_monad.
  rewrite Hn. reflexivity.
Qed.

Lemma gemini_complete_empty self messages max_output_tokens kwargs tr sys :
  to_gemini_messages H messages = inr (sys, []) →
  raises_before_call
    (GoogleGeminiAdapter.complete V H self messages max_output_tokens kwargs)
    tr.
Proof.
  intros Hn. eexists. unfold GoogleGeminiAdapter.complete. run_monad.
  rewrite Hn. reflexivity.
Qed.

Lemma openai_complete_run self messages max_output_tokens kwargs tr norm :
  normalize_messages H messages (Some (OpenAIAdapter._allow_system self))
    None None = inr norm →
  norm ≠ [] →
  OpenAIAdapter.complete V H self messages max_output_tokens kwargs tr =
    (match ChatCompletion_create V
             (openai_request self norm max_output_tokens kwargs) with
     | inl e => inl e
     | inr resp => OpenAIAdapter.response_text resp
     end,
     tr ++ [OpenAICall (openai_request self norm max_output_tokens kwargs)]).
Proof.
  intros Hn Hne. unfold OpenAIAdapter.complete. run_monad.
  rewrite Hn. rewrite decide_False by done.
  unfold openai_request.
  by destruct (ChatCompletion_create V _).
Qed.

Lemma local_complete_run self messages max_output_tokens kwargs tr norm :
  normalize_messages H messages None (Some true)
    (Some (OpenAIAdapter._allow_system self)) = inr norm →
  norm ≠ [] →
  LocalAdapter.complete V H self messages max_output_tokens kwargs tr =
    (match ChatCompletion_create V
             (openai_request self norm max_output_tokens kwargs) with
     | inl e => inl e
     | inr resp => OpenAIAdapter.response_text resp
     end,
     tr ++ [OpenAICall (openai_request self norm max_output_tokens kwargs)]).
Proof.
  intros Hn Hne. unfold LocalAdapter.complete. run_monad.
  rewrite Hn. rewrite decide_False by done.
  unfold openai_request.
  by destruct (ChatCompletion_create V _).
Qed.

Lemma GenerateContentConfig_disjoint max_output_tokens sys kwargs :
  kwargs !! "max_output_tokens" = None →
  kwargs !! "system_instruction" = None →
  GoogleGeminiAdapter.GenerateContentConfig V max_output_tokens sys kwargs
  = config_class V (gemini_config_keywords sys max_output_tokens kwargs).
Proof.
  intros H1 H2. unfold GoogleGeminiAdapter.GenerateContentConfig.
  by rewrite decide_True by done.
Qed.

Lemma GenerateContentConfig_collision max_output_tokens sys kwargs k :
  k = "max_output_tokens" ∨ k = "system_instruction" →
  is_Some (kwargs !! k) →
  GoogleGeminiAdapter.GenerateContentConfig V max_output_tokens sys kwargs
  = inl (TypeError "got multiple values for keyword argument").
Proof.
  intros Hk [v Hv]. unfold GoogleGeminiAdapter.GenerateContentConfig.
  rewrite decide_False; [done|].
  intros [H1 H2]. destruct Hk as [-> | ->]; congruence.
Qed.

(** A refusal of the config, by the call or by the class, ends the run
    before the vendor call. *)
Lemma gemini_complete_refused self messages max_output_tokens kwargs tr
    sys contents e :
  to_gemini_messages H messages = inr (sys, contents) →
  contents ≠ [] →
  GoogleGeminiAdapter.GenerateContentConfig V max_output_tokens sys kwargs
    = inl e →
  GoogleGeminiAdapter.complete V H self messages max_output_tokens kwargs tr
  = (inl e, tr).
Proof.
  intros Hn Hne Hc. unfold GoogleGeminiAdapter.complete. run_monad.
  rewrite Hn. rewrite decide_False by done. by rewrite Hc.
Qed.

Lemma gemini_complete_run self messages max_output_tokens kwargs tr
    sys contents config :
  to_gemini_messages H messages = inr (sys, contents) →
  contents ≠ [] →
  GoogleGeminiAdapter.GenerateContentConfig V max_output_tokens sys kwargs
    = inr config →
  GoogleGeminiAdapter.complete V H self messages max_output_tokens kwargs tr =
    (match generate_content V (gemini_request self contents config) with
     | inl e => inl e
     | inr resp => inr (GoogleGeminiAdapter.response_text resp)
     end,
     tr ++ [GeminiCall (gemini_request self contents config)]).
Proof.
  intros Hn Hne Hc.
  unfold GoogleGeminiAdapter.complete. run_monad.
  rewrite Hn. rewrite decide_False by done. rewrite Hc.
  unfold gemini_request.
  by destruct (generate_content V _).
Qed.

End AdapterRuns.

(** C2: the OpenAI-compatible, the local and the Gemini adapter raise a
    [ValueError] before the vendor call when normalization or
    conversion leaves nothing; [AnthropicAdapter.complete] has no such
    check: on the empty conversation its history is empty, and still
    the vendor is called with it; for no conversation at all does it
    raise before the call. *)
Theorem anthropic_complete_empty_calls_vendor (V : Vendors)
    (H : MessagesModule) (oa : OpenAIAdapter.t) (la : LocalAdapter.t)
    (gm : GoogleGeminiAdapter.t) (self : AnthropicAdapter.t)
    (max_output_tokens : Z) (kwargs : gmap string value) (tr : Trace) :
  (∀ messages,
     normalize_messages H messages (Some (OpenAIAdapter._allow_system oa))
       None None = inr [] →
     raises_before_call
       (OpenAIAdapter.complete V H oa messages max_output_tokens kwargs) tr)
  ∧ (∀ messages,
       normalize_messages H messages None (Some true)
         (Some (OpenAIAdapter._allow_system la)) = inr [] →
       raises_before_call
         (LocalAdapter.complete V H la messages max_output_tokens kwargs) tr)
  ∧ (∀ messages sys,
       to_gemini_messages H messages = inr (sys, []) →
       raises_before_call
         (GoogleGeminiAdapter.complete V H gm messages max_output_tokens
            kwargs) tr)
  ∧ AnthropicAdapter._split H [] = (None, [])
  ∧ (AnthropicAdapter.complete V H self [] max_output_tokens kwargs tr).2
    = tr ++ [AnthropicCall
               (dict_update
                  (AnthropicAdapter.base_params self None [] max_output_tokens)
                  kwargs)]
  ∧ (∀ messages,
       ¬ raises_before_call
           (AnthropicAdapter.complete V H self messages max_output_tokens kwargs)
           tr).
Proof.
  split; [|split; [|split; [|split; [|split]]]].
  - intros messages. apply openai_complete_empty.
  - intros messages. apply local_complete_empty.
  - intros messages sys. apply gemini_complete_empty.
  - done.
  - by rewrite anthropic_complete_run.
  - intros messages [m Hm]. rewrite anthropic_complete_run in Hm.
    apply (f_equal snd) in Hm. cbn [snd] in Hm.
    apply (f_equal length) in Hm. rewrite length_app in Hm.
    cbn [length] in Hm. lia.
Qed.

(** C6 (amended): the OpenAI-compatible, the local and the Anthropic
    adapter send their base parameters updated with the caller's
    options, and in such an update the caller's value wins on every key
    the caller gives while the other keys keep the base value; the
    Gemini adapter sends the model and the contents as the adapter
    built them, hands the options, with [max_output_tokens] and
    [system_instruction], as keywords to the config class (for options
    that name neither of the two) and sends the config that the class
    returns. *)
Theorem caller_options_merge (V : Vendors) (H : MessagesModule)
    (oa : OpenAIAdapter.t) (la : LocalAdapter.t) (an : AnthropicAdapter.t)
    (gm : GoogleGeminiAdapter.t) (messages : list Message)
    (max_output_tokens : Z) (kwargs : gmap string value) (tr : Trace) :
  (∀ norm,
     normalize_messages H messages (Some (OpenAIAdapter._allow_system oa))
       None None = inr norm →
     norm ≠ [] →
     (OpenAIAdapter.complete V H oa messages max_output_tokens kwargs tr).2
     = tr ++ [OpenAICall
         (dict_update (OpenAIAdapter.base_params oa norm max_output_tokens)
            kwargs)])
  ∧ (∀ norm,
       normalize_messages H messages None (Some true)
         (Some (OpenAIAdapter._allow_system la)) = inr norm →
       norm ≠ [] →
       (LocalAdapter.complete V H la messages max_output_tokens kwargs tr).2
       = tr ++ [OpenAICall
           (dict_update (OpenAIAdapter.base_params la norm max_output_tokens)
              kwargs)])
  ∧ (AnthropicAdapter.complete V H an messages max_output_tokens kwargs tr).2
    = tr ++ [AnthropicCall
        (dict_update
           (AnthropicAdapter.base_params an
              (AnthropicAdapter._split H messages).1
              (AnthropicAdapter._split H messages).2 max_output_tokens)
           kwargs)]
  ∧ (∀ sys contents config,
       to_gemini_messages H messages = inr (sys, contents) →
       contents ≠ [] →
       kwargs !! "max_output_tokens" = None →
       kwargs !! "system_instruction" = None →
       config_class V
         (dict_update
            {[ "max_output_tokens" := VInt max_output_tokens;
               "system_instruction" := from_option VStr VNone sys ]}
            kwargs) = inr config →
       (GoogleGeminiAdapter.complete V H gm messages max_output_tokens kwargs
          tr).2
       = tr ++ [GeminiCall
           {| req_model := GoogleGeminiAdapter.model gm;
              req_contents := contents;
              req_config := config |}])
  ∧ (∀ d k v, kwargs !! k = Some v → dict_update d kwargs !! k = Some v)
  ∧ (∀ d k, kwargs !! k = None → dict_update d kwargs !! k = d !! k).
Proof.
  split; [|split; [|split; [|split; [|split]]]].
  - intros norm Hn Hne.
    by rewrite (openai_complete_run V H oa _ _ _ _ norm).
  - intros norm Hn Hne.
    by rewrite (local_complete_run V H la _ _ _ _ norm).
  - by rewrite anthropic_complete_run.
  - intros sys contents config Hg Hne H1 H2 Hc.
    rewrite (gemini_complete_run V H gm _ _ _ _ sys contents config); try done.
    by rewrite GenerateContentConfig_disjoint.
  - intros d k v. apply dict_update_lookup_caller.
  - intros d k. apply dict_update_lookup_base.
Qed.

(** C6 at a conversation of one user turn: with the option
    [max_tokens = 5] the requests of the OpenAI-compatible, the local
    and the Anthropic adapter carry the caller's 5, not the adapter's
    16; with the option [temperature = 0] and a config class that
    accepts it, the Gemini request carries the config of the three
    keywords. *)
Lemma caller_options_merge_witness :
  ((OpenAIAdapter.complete sample_vendors sample_messages gpt
      [msg "user" "Hi"] 16 {[ "max_tokens" := VInt 5 ]} []).2
   = [OpenAICall
        {[ "model" := VStr "gpt-4o";
           "messages" := VMessages [msg "user" "Hi"];
           "max_tokens" := VInt 5 ]}])
  ∧ ((LocalAdapter.complete sample_vendors sample_messages llama
        [msg "user" "Hi"] 16 {[ "max_tokens" := VInt 5 ]} []).2
     = [OpenAICall
          {[ "model" := VStr "llama3";
             "messages" := VMessages [msg "user" "Hi"];
             "max_tokens" := VInt 5 ]}])
  ∧ ((AnthropicAdapter.complete sample_vendors sample_messages claude
        [msg "user" "Hi"] 16 {[ "max_tokens" := VInt 5 ]} []).2
     = [AnthropicCall
          {[ "model" := VStr "claude-4-sonnet-20250514";
             "system" := VNone;
             "messages" := VHistory
               [ {| h_role := "user"; h_content := [TextBlock "Hi"] |} ];
             "max_tokens" := VInt 5 ]}])
  ∧ ((GoogleGeminiAdapter.complete sample_vendors sample_messages gemini
        [msg "user" "Hi"] 16 {[ "temperature" := VInt 0 ]} []).2
     = [GeminiCall
          {| req_model := "gemini-2.5-flash";
             req_contents := [ {| g_role := "user"; g_parts := ["Hi"] |} ];
             req_config :=
               {[ "max_output_tokens" := VInt 16;
                  "system_instruction" := VNone;
                  "temperature" := VInt 0 ]} |}]).
Proof.
  destruct (caller_options_merge sample_vendors sample_messages gpt llama
              claude gemini [msg "user" "Hi"] 16 {[ "max_tokens" := VInt 5 ]}
              []) as (Ho & Hl & Ha & _).
  destruct (caller_options_merge sample_vendors sample_messages gpt llama
              claude gemini [msg "user" "Hi"] 16 {[ "temperature" := VInt 0 ]}
              []) as (_ & _ & _ & Hg & _).
  split; [|split; [|split]].
  - rewrite (Ho [msg "user" "Hi"] eq_refl ltac:(done)).
    vm_compute. reflexivity.
  - rewrite (Hl [msg "user" "Hi"] eq_refl ltac:(done)).
    vm_compute. reflexivity.
  - rewrite Ha.
    vm_compute. reflexivity.
  - rewrite (Hg None [ {| g_role := "user"; g_parts := ["Hi"] |} ]
               (dict_update
                  {[ "max_output_tokens" := VInt 16;
                     "system_instruction" := VNone ]}
                  {[ "temperature" := VInt 0 ]})
               eq_refl ltac:(done) eq_refl eq_refl eq_refl).
    vm_compute. reflexivity.
Defined.

(** C6 (as stated) fails for the Gemini adapter: the option
    [system_instruction], which reaches the body of [complete], collides
    with the adapter's own keyword; the caller's value does not win,
    the call of the config class raises a [TypeError] and no request
    is sent. *)
Lemma gemini_system_instruction_collision :
  bound_kwargs {[ "system_instruction" := VStr "Be terse." ]}
  ∧ GoogleGeminiAdapter.complete sample_vendors sample_messages gemini
      [msg "user" "Hi"] 16 {[ "system_instruction" := VStr "Be terse." ]} []
    = (inl (TypeError "got multiple values for keyword argument"), []).
Proof. split; [by repeat split|]. vm_compute. reflexivity. Qed.

(** ** GoogleGeminiAdapter: flattening the response *)

Lemma collect_loop (ps : list GeminiPart) (texts : list string) :
  foldl (λ texts part,
           let text := part_text part in
           if truthy text then texts ++ [default "" text] else texts)
        texts ps
  = texts ++ omap (λ p, match part_text p with
                        | Some s => if decide (s = "") then None else Some s
                        | None => None
                        end) ps.
Proof.
  revert texts. induction ps as [|p ps IH]; intros texts.
  - cbn [foldl omap list_omap]. by rewrite app_nil_r.
  - cbn [foldl omap list_omap]. rewrite IH. cbn zeta.
    destruct (part_text p) as [s|]; cbn [truthy default]; [|done].
    destruct (decide (s = "")) as [->|Hs]; [done|].
    rewrite bool_decide_true by done. by rewrite <- app_assoc.
Qed.

Lemma collect_parts_spec texts c :
  GoogleGeminiAdapter.collect_parts texts c = texts ++ candidate_texts c.
Proof.
  unfold GoogleGeminiAdapter.collect_parts, candidate_texts. cbn zeta.
  destruct (cand_content c) as [[[ps|]]|]; cbn [mbind option_bind default parts];
    try by rewrite app_nil_r.
  apply collect_loop.
Qed.

Lemma collect_candidates_spec texts cs :
  foldl GoogleGeminiAdapter.collect_parts texts cs
  = texts ++ concat (candidate_texts <$> cs).
Proof.
  revert texts. induction cs as [|c cs IH]; intros texts.
  - by rewrite app_nil_r.
  - cbn [foldl fmap list_fmap concat]. rewrite IH, collect_parts_spec.
    by rewrite <- app_assoc.
Qed.

Lemma gemini_response_text resp :
  GoogleGeminiAdapter.response_text resp =
    match resp_text resp with
    | Some t => if decide (t = "") then gemini_fallback resp else t
    | None => gemini_fallback resp
    end.
Proof.
  assert (foldl GoogleGeminiAdapter.collect_parts []
            (default [] (candidates resp)) = all_text_parts resp) as Hall.
  { rewrite collect_candidates_spec. unfold all_text_parts.
    by destruct (candidates resp). }
  unfold GoogleGeminiAdapter.response_text, gemini_fallback.
  rewrite Hall. destruct (resp_text resp) as [t|]; cbn [truthy default]; [|done].
  destruct (decide (t = "")) as [->|Ht]; [done|].
  by rewrite bool_decide_true.
Qed.

(** When no part has an empty text, the text parts of a candidate are
    the texts of all its parts that have one. *)
Lemma candidate_texts_present c ps :
  cand_content c = Some {| parts := Some ps |} →
  Forall (λ p, part_text p ≠ Some "") ps →
  candidate_texts c = omap part_text ps.
Proof.
  intros Hc Hall. unfold candidate_texts. rewrite Hc. clear Hc.
  induction Hall as [|p ps Hp Hps IH]; [done|].
  cbn [omap list_omap]. rewrite IH.
  destruct (part_text p) as [s|]; [|done].
  by rewrite decide_False by (by intros ->).
Qed.

Lemma candidate_texts_filter c :
  candidate_texts c = filter (λ s, s ≠ "") (candidate_present_texts c).
Proof.
  unfold candidate_texts, candidate_present_texts.
  destruct (cand_content c) as [[[ps|]]|]; try done.
  induction ps as [|p ps IH]; [done|].
  cbn [omap list_omap]. rewrite IH.
  destruct (part_text p) as [s|]; [|done].
  rewrite filter_cons. by destruct (decide (s = "")) as [->|?];
    [rewrite decide_False by (by intros ?)|rewrite decide_True].
Qed.

Lemma all_text_parts_filter resp :
  all_text_parts resp = filter (λ s, s ≠ "") (present_texts resp).
Proof.
  unfold all_text_parts, present_texts.
  destruct (candidates resp) as [cs|]; [|done].
  induction cs as [|c cs IH]; [done|].
  cbn [fmap list_fmap concat]. rewrite filter_app.
  by rewrite candidate_texts_filter, IH.
Qed.

(** C4 (amended): when the conversion leaves contents, the config is
    accepted and the vendor answers with [resp],
    [GoogleGeminiAdapter.complete] returns the top-level text of [resp]
    if it is present and not empty, and otherwise the non-empty text
    parts of all candidates, in order, joined by a newline; these are
    the text parts of the response without the empty ones, which
    contribute nothing, not even a separator. *)
Theorem gemini_complete_text (V : Vendors) (H : MessagesModule)
    (self : GoogleGeminiAdapter.t) (messages : list Message)
    (max_output_tokens : Z) (kwargs : gmap string value) (tr : Trace)
    (sys : option string) (contents : list GeminiContent)
    (config : gmap string value) (resp : GeminiResponse) :
  to_gemini_messages H messages = inr (sys, contents) →
  contents ≠ [] →
  GoogleGeminiAdapter.GenerateContentConfig V max_output_tokens sys kwargs
    = inr config →
  generate_content V
    {| req_model := GoogleGeminiAdapter.model self;
       req_contents := contents;
       req_config := config |} = inr resp →
  GoogleGeminiAdapter.complete V H self messages max_output_tokens kwargs tr
  = (inr (match resp_text resp with
          | Some t =>
              if decide (t = "")
              then str_join "
" (filter (λ s, s ≠ "") (present_texts resp))
              else t
          | None => str_join "
" (filter (λ s, s ≠ "") (present_texts resp))
          end),
     tr ++ [GeminiCall
              {| req_model := GoogleGeminiAdapter.model self;
                 req_contents := contents;
                 req_config := config |}]).
Proof.
  intros Hg Hne Hc Hresp.
  rewrite (gemini_complete_run V H self _ _ _ _ sys contents config) by done.
  unfold gemini_request. rewrite Hresp. rewrite gemini_response_text.
  unfold gemini_fallback. by rewrite all_text_parts_filter.
Qed.

(** C4 at the response without a top-level text whose only candidate
    has the parts [a] and [b]: the result is [a], a newline, [b]. *)
Lemma gemini_complete_text_witness :
  (GoogleGeminiAdapter.complete sample_vendors sample_messages gemini
     [msg "user" "Hi"] 16 ∅ []).1
  = inr "a
b".
Proof.
  rewrite (gemini_complete_text sample_vendors sample_messages gemini
             [msg "user" "Hi"] 16 ∅ [] None
             [ {| g_role := "user"; g_parts := ["Hi"] |} ]
             (gemini_config_keywords None 16 ∅) parts_response
             eq_refl ltac:(done) eq_refl eq_refl).
  reflexivity.
Defined.

(** C4 (as stated) fails: a part whose text is the empty string is a
    text part of the response, and the code leaves it out; with the
    parts [a], the empty text and [b] the result is [a], a newline,
    [b], while all text parts joined by a newline have an empty line
    between them. *)
Lemma gemini_empty_part_dropped :
  (GoogleGeminiAdapter.complete
     (fixed_vendors {| choices := [] |} hello_response gapped_response)
     sample_messages gemini [msg "user" "Hi"] 16 ∅ []).1
  = inr "a
b"
  ∧ present_texts gapped_response = ["a"; ""; "b"]
  ∧ str_join "
" (present_texts gapped_response) = "a

b".
Proof. repeat split. Qed.

(** ** GoogleGeminiAdapter: construction *)

(** C7: construction fails with an [ImportError] when the library is
    unavailable, and, the library being there, with a [ValueError] when
    the API key is missing or empty; the two are different exceptions;
    an adapter that was constructed holds the library and a non-empty
    API key, the one that was passed. *)
Theorem gemini_init_checks (genai genai_types : option PyModule)
    (api_key : option string) (model : string) :
  ((genai = None ∨ genai_types = None) →
     ∃ msg, GoogleGeminiAdapter.__init__ genai genai_types api_key model
            = inl (ImportError msg))
  ∧ (is_Some genai → is_Some genai_types → truthy api_key = false →
     ∃ msg, GoogleGeminiAdapter.__init__ genai genai_types api_key model
            = inl (ValueError msg))
  ∧ (∀ self, GoogleGeminiAdapter.__init__ genai genai_types api_key model
             = inr self →
       genai = Some (GoogleGeminiAdapter.library
                       (GoogleGeminiAdapter.client self))
       ∧ is_Some genai_types
       ∧ api_key = Some (GoogleGeminiAdapter.client_api_key
                           (GoogleGeminiAdapter.client self))
       ∧ GoogleGeminiAdapter.client_api_key
           (GoogleGeminiAdapter.client self) ≠ ""
       ∧ GoogleGeminiAdapter.model self = model)
  ∧ (∀ m1 m2, ImportError m1 ≠ ValueError m2).
Proof.
  unfold GoogleGeminiAdapter.__init__. split; [|split; [|split]].
  - intros [-> | ->]; [by eexists|]. destruct genai; by eexists.
  - intros [g ->] [gt ->] Hkey. destruct api_key as [k|]; [|by eexists].
    cbn [truthy] in Hkey. apply bool_decide_eq_false in Hkey.
    destruct (decide (k = "")); [by eexists|]. by destruct Hkey.
  - intros self. destruct genai, genai_types, api_key as [k|]; try done.
    destruct (decide (k = "")); [done|]. intros [= <-]. by repeat split.
  - done.
Qed.

(** ** Normalizer *)

Module NormalizerFacts.
Import Normalizer.

(** The scenarios of the specification. *)
Example scenario_system_allowed :
  normalize [turn system "Be terse."; turn user "Hi"] true false false
  = inr [turn system "Be terse."; turn user "Hi"].
Proof. reflexivity. Qed.

Example scenario_system_merged :
  normalize [turn system "Be terse."; turn user "Hi"] false true false
  = inr [turn user "Be terse.
Hi"].
Proof. reflexivity. Qed.

Example scenario_only_system_dropped :
  normalize [turn system "X"] false false false = inl EmptyConversationError.
Proof. reflexivity. Qed.

Example scenario_no_system_unchanged :
  normalize [turn user "Hi"; turn assistant "Hello"; turn user "Bye"]
    false true true
  = inr [turn user "Hi"; turn assistant "Hello"; turn user "Bye"].
Proof. reflexivity. Qed.

(** *** Contents *)







(** *** System turns *)

Abbreviation system_turns := (filter (λ t : ChatTurn, role t = system)).
Abbreviation system_turn sys := {| role := system; content := sys |}.
Abbreviation user_turn c := {| role := user; content := c |}.








(** *** The merge into the first user turn *)














End NormalizerFacts.

(** * Further properties of the adapters *)

(** ** [_split] and the Anthropic request *)

(** [_split] of a conversation in two parts: the histories are
    appended, and the system aggregation is that of the second part
    when it has a system turn, else that of the first part. *)
Theorem split_app (H : MessagesModule) (a b : list Message) :
  AnthropicAdapter._split H (a ++ b)
  = (match (AnthropicAdapter._split H b).1 with
     | Some s => Some s
     | None => (AnthropicAdapter._split H a).1
     end,
     (AnthropicAdapter._split H a).2 ++ (AnthropicAdapter._split H b).2).
Proof.
  unfold AnthropicAdapter._split at 1. rewrite foldl_app.
  fold (AnthropicAdapter._split H a).
  rewrite (split_spec H a), split_loop, (split_spec H b). cbn [fst snd].
  by destruct (last_system b).
Qed.

(** Unless the caller gives a [system] option, the request of
    [AnthropicAdapter.complete] carries under [system] the blocks of
    the last system turn, and an explicit [None] when the conversation
    has no system turn; it never carries an empty block list. *)
Theorem anthropic_system_entry (V : Vendors) (H : MessagesModule)
    (self : AnthropicAdapter.t) (messages : list Message)
    (max_output_tokens : Z) (kwargs : gmap string value) (tr : Trace) :
  kwargs !! "system" = None →
  ∃ params,
    (AnthropicAdapter.complete V H self messages max_output_tokens kwargs tr).2
      = tr ++ [AnthropicCall params]
    ∧ params !! "system"
      = Some (match last_system messages with
              | Some s => VBlocks (py_or (to_antrophic H s) [TextBlock ""])
              | None => VNone
              end)
    ∧ params !! "system" ≠ Some (VBlocks []).
Proof.
  intros Hkw.
  exists (anthropic_request H self messages max_output_tokens kwargs).
  assert (anthropic_request H self messages max_output_tokens kwargs
            !! "system"
          = Some (match last_system messages with
                  | Some s => VBlocks (py_or (to_antrophic H s) [TextBlock ""])
                  | None => VNone
                  end)) as Hsys.
  { unfold anthropic_request. rewrite dict_update_lookup_base by done.
    unfold AnthropicAdapter.base_params. rewrite split_spec. cbn [fst snd].
    rewrite lookup_insert_ne by done. rewrite lookup_insert_eq.
    by destruct (last_system messages). }
  split; [by rewrite anthropic_complete_run|]. split; [done|].
  rewrite Hsys. destruct (last_system messages) as [s|]; [|done].
  intros [= Hnil]. by eapply (py_or_nonempty (to_antrophic H s)), Hnil.
Qed.

(** At a conversation without a system turn the request says
    [system = None]. *)
Lemma anthropic_system_entry_witness :
  ∃ params,
    (AnthropicAdapter.complete sample_vendors sample_messages claude
       [msg "user" "Hi"] 16 ∅ []).2 = [] ++ [AnthropicCall params]
    ∧ params !! "system"
      = Some (match last_system [msg "user" "Hi"] with
              | Some s =>
                  VBlocks (py_or (to_antrophic sample_messages s) [TextBlock ""])
              | None => VNone
              end)
    ∧ params !! "system" ≠ Some (VBlocks []).
Proof.
  exact (anthropic_system_entry sample_vendors sample_messages claude
           [msg "user" "Hi"] 16 ∅ [] eq_refl).
Defined.

(** ** Errors and the number of vendor calls *)

(** When the vendor call of an adapter raises, the adapter raises the
    same error, unchanged, after that one call: nothing is retried and
    nothing is swallowed. *)
Theorem vendor_error_propagates (V : Vendors) (H : MessagesModule)
    (oa : OpenAIAdapter.t) (la : LocalAdapter.t) (an : AnthropicAdapter.t)
    (gm : GoogleGeminiAdapter.t) (messages : list Message)
    (max_output_tokens : Z) (kwargs : gmap string value) (tr : Trace)
    (e : exn) :
  (∀ norm,
     normalize_messages H messages (Some (OpenAIAdapter._allow_system oa))
       None None = inr norm →
     norm ≠ [] →
     ChatCompletion_create V (openai_request oa norm max_output_tokens kwargs)
       = inl e →
     OpenAIAdapter.complete V H oa messages max_output_tokens kwargs tr
     = (inl e,
        tr ++ [OpenAICall (openai_request oa norm max_output_tokens kwargs)]))
  ∧ (∀ norm,
       normalize_messages H messages None (Some true)
         (Some (OpenAIAdapter._allow_system la)) = inr norm →
       norm ≠ [] →
       ChatCompletion_create V
         (openai_request la norm max_output_tokens kwargs) = inl e →
       LocalAdapter.complete V H la messages max_output_tokens kwargs tr
       = (inl e,
          tr ++ [OpenAICall
                   (openai_request la norm max_output_tokens kwargs)]))
  ∧ (messages_create V
       (anthropic_request H an messages max_output_tokens kwargs) = inl e →
     AnthropicAdapter.complete V H an messages max_output_tokens kwargs tr
     = (inl e,
        tr ++ [AnthropicCall
                 (anthropic_request H an messages max_output_tokens kwargs)]))
  ∧ (∀ sys contents config,
       to_gemini_messages H messages = inr (sys, contents) →
       contents ≠ [] →
       GoogleGeminiAdapter.GenerateContentConfig V max_output_tokens sys
         kwargs = inr config →
       generate_content V (gemini_request gm contents config) = inl e →
       GoogleGeminiAdapter.complete V H gm messages max_output_tokens kwargs
         tr
       = (inl e, tr ++ [GeminiCall (gemini_request gm contents config)])).
Proof.
  split; [|split; [|split]].
  - intros norm Hn Hne Ho.
    by rewrite (openai_complete_run V H oa _ _ _ _ norm), Ho.
  - intros norm Hn Hne Ho.
    by rewrite (local_complete_run V H la _ _ _ _ norm), Ho.
  - intros Ha. by rewrite anthropic_complete_run, Ha.
  - intros sys contents config Hc Hne Hcfg Hg.
    by rewrite (gemini_complete_run V H gm _ _ _ _ sys contents config), Hg.
Qed.

(** With a vendor that answers every request with an error, each of
    the four adapters raises that error after its one call. *)
Lemma vendor_error_propagates_witness :
  (OpenAIAdapter.complete (failing_vendors (VendorError "overloaded"))
     sample_messages gpt [msg "user" "Hi"] 16 ∅ []).1
  = inl (VendorError "overloaded")
  ∧ (LocalAdapter.complete (failing_vendors (VendorError "overloaded"))
       sample_messages llama [msg "user" "Hi"] 16 ∅ []).1
    = inl (VendorError "overloaded")
  ∧ (AnthropicAdapter.complete (failing_vendors (VendorError "overloaded"))
       sample_messages claude [msg "user" "Hi"] 16 ∅ []).1
    = inl (VendorError "overloaded")
  ∧ (GoogleGeminiAdapter.complete (failing_vendors (VendorError "overloaded"))
       sample_messages gemini [msg "user" "Hi"] 16 ∅ []).1
    = inl (VendorError "overloaded").
Proof.
  destruct (vendor_error_propagates (failing_vendors (VendorError "overloaded"))
              sample_messages gpt llama claude gemini [msg "user" "Hi"] 16 ∅ []
              (VendorError "overloaded")) as (Ho & Hl & Ha & Hg).
  split; [|split; [|split]].
  - by rewrite (Ho [msg "user" "Hi"] eq_refl ltac:(done) eq_refl).
  - by rewrite (Hl [msg "user" "Hi"] eq_refl ltac:(done) eq_refl).
  - by rewrite (Ha eq_refl).
  - by rewrite (Hg None [ {| g_role := "user"; g_parts := ["Hi"] |} ]
                  (gemini_config_keywords None 16 ∅)
                  eq_refl ltac:(done) eq_refl eq_refl).
Defined.



(** A run of [complete] either raises and leaves the trace as it was,
    or appends exactly one call, to the adapter's own vendor; no
    completion is returned without that call. *)
Theorem complete_calls_vendor_at_most_once (V : Vendors) (H : MessagesModule)
    (oa : OpenAIAdapter.t) (la : LocalAdapter.t) (an : AnthropicAdapter.t)
    (gm : GoogleGeminiAdapter.t) (messages : list Message)
    (max_output_tokens : Z) (kwargs : gmap string value) (tr : Trace) :
  ((∃ e, OpenAIAdapter.complete V H oa messages max_output_tokens kwargs tr
         = (inl e, tr))
   ∨ (∃ p, (OpenAIAdapter.complete V H oa messages max_output_tokens kwargs
              tr).2 = tr ++ [OpenAICall p]))
  ∧ ((∃ e, LocalAdapter.complete V H la messages max_output_tokens kwargs tr
           = (inl e, tr))
     ∨ (∃ p, (LocalAdapter.complete V H la messages max_output_tokens kwargs
                tr).2 = tr ++ [OpenAICall p]))
  ∧ (∃ p, (AnthropicAdapter.complete V H an messages max_output_tokens kwargs
             tr).2 = tr ++ [AnthropicCall p])
  ∧ ((∃ e, GoogleGeminiAdapter.complete V H gm messages max_output_tokens
             kwargs tr = (inl e, tr))
     ∨ (∃ rq, (GoogleGeminiAdapter.complete V H gm messages max_output_tokens
                 kwargs tr).2 = tr ++ [GeminiCall rq])).
Proof.
  split; [|split; [|split]].
  - unfold OpenAIAdapter.complete. run_monad.
    destruct (normalize_messages H _ _ _ _) as [e|norm]; [left; by eexists|].
    destruct (decide (norm = [])); [left; by eexists|].
    right. eexists. by destruct (ChatCompletion_create V _).
  - unfold LocalAdapter.complete. run_monad.
    destruct (normalize_messages H _ _ _ _) as [e|norm]; [left; by eexists|].
    destruct (decide (norm = [])); [left; by eexists|].
    right. eexists. by destruct (ChatCompletion_create V _).
  - eexists. by rewrite anthropic_complete_run.
  - unfold GoogleGeminiAdapter.complete. run_monad.
    destruct (to_gemini_messages H _) as [e|[sys contents]];
      [left; by eexists|].
    destruct (decide (contents = [])); [left; by eexists|].
    destruct (GoogleGeminiAdapter.GenerateContentConfig V _ _ _) as [e|config];
      [left; by eexists|].
    right. eexists. by destruct (generate_content V _).
Qed.



(** ** What the caller's options can and cannot change *)



(** The Gemini adapter, for options that reach [complete] and a
    conversion that leaves contents: an option [system_instruction]
    makes the call of the config class a [TypeError] and no request is
    sent; without it, the class is called with the [max_output_tokens]
    argument, the converter's system instruction and every option; if
    the class refuses them, its error is raised and no request is
    sent, and if it returns a config, one request is sent with the
    adapter's model, the contents and that config. *)
Theorem gemini_options_outcome (V : Vendors) (H : MessagesModule)
    (gm : GoogleGeminiAdapter.t) (messages : list Message)
    (max_output_tokens : Z) (kwargs : gmap string value) (tr : Trace)
    (sys : option string) (contents : list GeminiContent) :
  bound_kwargs kwargs →
  to_gemini_messages H messages = inr (sys, contents) →
  contents ≠ [] →
  (is_Some (kwargs !! "system_instruction") →
   ∃ m, GoogleGeminiAdapter.complete V H gm messages max_output_tokens
          kwargs tr = (inl (TypeError m), tr))
  ∧ (kwargs !! "system_instruction" = None →
     gemini_config_keywords sys max_output_tokens kwargs
       !! "max_output_tokens" = Some (VInt max_output_tokens)
     ∧ gemini_config_keywords sys max_output_tokens kwargs
         !! "system_instruction" = Some (from_option VStr VNone sys)
     ∧ (∀ k v, kwargs !! k = Some v →
          gemini_config_keywords sys max_output_tokens kwargs !! k = Some v)
     ∧ (∀ e,
          config_class V (gemini_config_keywords sys max_output_tokens kwargs)
            = inl e →
          GoogleGeminiAdapter.complete V H gm messages max_output_tokens
            kwargs tr = (inl e, tr))
     ∧ (∀ config,
          config_class V (gemini_config_keywords sys max_output_tokens kwargs)
            = inr config →
            (GoogleGeminiAdapter.complete V H gm messages max_output_tokens
               kwargs tr).2
            = tr ++ [GeminiCall
                       {| req_model := GoogleGeminiAdapter.model gm;
                          req_contents := contents;
                          req_config := config |}])).
Proof.
  intros (_ & _ & Hmax) Hg Hne. split.
  - intros Hsome. eexists.
    apply (gemini_complete_refused V H gm _ _ _ _ sys contents); try done.
    by apply (GenerateContentConfig_collision V _ _ _ "system_instruction");
      [right|].
  - intros Hnone. split; [|split; [|split; [|split]]].
    + unfold gemini_config_keywords.
      rewrite dict_update_lookup_base by done. by rewrite lookup_insert_eq.
    + unfold gemini_config_keywords.
      rewrite dict_update_lookup_base by done.
      rewrite lookup_insert_ne by done. by rewrite lookup_singleton_eq.
    + intros k v. apply dict_update_lookup_caller.
    + intros e He.
      apply (gemini_complete_refused V H gm _ _ _ _ sys contents); try done.
      by rewrite GenerateContentConfig_disjoint.
    + intros config Hcfg.
      rewrite (gemini_complete_run V H gm _ _ _ _ sys contents config);
        try done.
      by rewrite GenerateContentConfig_disjoint.
Qed.

(** The option [system_instruction] reaches [complete] and is refused
    before any request; so is an option that the config class does not
    know. *)
Lemma gemini_options_outcome_witness :
  (∃ m, GoogleGeminiAdapter.complete strict_vendors sample_messages gemini
          [msg "user" "Hi"] 16
          {[ "system_instruction" := VStr "Be terse." ]} []
        = (inl (TypeError m), []))
  ∧ GoogleGeminiAdapter.complete strict_vendors sample_messages gemini
      [msg "user" "Hi"] 16 {[ "foo" := VInt 1 ]} []
    = (inl (VendorError "ValidationError: extra inputs are not permitted"),
       []).
Proof.
  split.
  - destruct (gemini_options_outcome strict_vendors sample_messages gemini
                [msg "user" "Hi"] 16
                {[ "system_instruction" := VStr "Be terse." ]} [] None
                [ {| g_role := "user"; g_parts := ["Hi"] |} ]
                ltac:(by repeat split) eq_refl ltac:(done)) as [Hcollide _].
    exact (Hcollide (ex_intro _ (VStr "Be terse.") eq_refl)).
  - destruct (gemini_options_outcome strict_vendors sample_messages gemini
                [msg "user" "Hi"] 16 {[ "foo" := VInt 1 ]} [] None
                [ {| g_role := "user"; g_parts := ["Hi"] |} ]
                ltac:(by repeat split) eq_refl ltac:(done)) as [_ Hclass].
    destruct (Hclass eq_refl) as (_ & _ & _ & Hrefused & _).
    apply Hrefused. vm_compute. reflexivity.
Defined.

(** ** When the completion is the empty string *)

Lemma string_app_empty_inv (a b : string) : a +:+ b = "" → a = "" ∧ b = "".
Proof. destruct a as [|x a]; [done|]. intros Hab. cbv in Hab. discriminate. Qed.

Lemma str_join_empty_inv sep (l : list string) :
  Forall (λ s, s ≠ "") l → str_join sep l = "" → l = [].
Proof.
  intros Hall. destruct Hall as [|x l Hx Hl]; [done|].
  rewrite str_join_cons. destruct l.
  - by intros ->.
  - intros Hj. by apply string_app_empty_inv in Hj as [-> _].
Qed.

Lemma candidate_texts_nonempty c : Forall (λ s, s ≠ "") (candidate_texts c).
Proof.
  unfold candidate_texts.
  destruct (cand_content c) as [[[ps|]]|]; try by apply Forall_nil.
  apply Forall_forall. intros s Hs.
  apply list_elem_of_omap in Hs as (p & _ & Hp).
  destruct (part_text p) as [t|]; [|done].
  destruct (decide (t = "")); [done|]. by injection Hp as <-.
Qed.

Lemma all_text_parts_nonempty resp :
  Forall (λ s, s ≠ "") (all_text_parts resp).
Proof.
  unfold all_text_parts. destruct (candidates resp) as [cs|]; [|done].
  apply Forall_concat, Forall_fmap, Forall_forall.
  intros c _. apply candidate_texts_nonempty.
Qed.

(** The Gemini extraction yields the empty string exactly when the
    response has no non-empty top-level text and no candidate has a
    part with a non-empty text; missing attributes are never an
    error. *)
Theorem gemini_text_empty_iff (resp : GeminiResponse) :
  GoogleGeminiAdapter.response_text resp = ""
  ↔ truthy (resp_text resp) = false
    ∧ Forall (λ c, candidate_texts c = []) (default [] (candidates resp)).
Proof.
  assert (all_text_parts resp = []
          ↔ Forall (λ c, candidate_texts c = [])
              (default [] (candidates resp))) as Hparts.
  { unfold all_text_parts. destruct (candidates resp) as [cs|]; [|done].
    cbn [default from_option id]. induction cs as [|c cs IH]; [done|].
    cbn [fmap list_fmap concat]. rewrite Forall_cons, <- IH.
    split; [by intros [? ?]%app_eq_nil|by intros [-> ->]]. }
  rewrite <- Hparts, gemini_response_text. unfold gemini_fallback. split.
  - intros Hempty. destruct (resp_text resp) as [t|]; cbn [truthy].
    + destruct (decide (t = "")) as [->|Ht]; [|done].
      split; [done|].
      apply (str_join_empty_inv newline);
        [apply all_text_parts_nonempty|done].
    + split; [done|].
      apply (str_join_empty_inv newline);
        [apply all_text_parts_nonempty|done].
  - intros [Htext Hall]. rewrite Hall.
    destruct (resp_text resp) as [t|]; [|done].
    cbn [truthy] in Htext. apply bool_decide_eq_false in Htext.
    destruct (decide (t = "")); [done|]. by destruct Htext.
Qed.

(** The Anthropic extraction yields the empty string exactly when every
    block typed ['text'] has an empty text. *)
Theorem anthropic_text_empty_iff (resp : AnthropicMessage) :
  AnthropicAdapter.response_text resp = ""
  ↔ Forall (λ c, rb_type c = Some "text" → rb_text c = "")
      (resp_content resp).
Proof.
  rewrite response_text_concat.
  induction (resp_content resp) as [|c cs IH]; [done|].
  cbn [text_concat]. rewrite Forall_cons, <- IH.
  destruct (decide (rb_type c = Some "text")) as [Hc|Hc].
  - split.
    + intros [? ?]%string_app_empty_inv. by split.
    + intros [Ht ->]. by rewrite Ht.
  - split; [by split|by intros [_ ?]].
Qed.

(** ** The constructors of the OpenAI-compatible adapters *)

(** The [openai] configuration is shared by all instances: the base URL
    that a [LocalAdapter] sets stays in force when an [OpenAIAdapter]
    is constructed afterwards without one, while the API key is that
    of the adapter constructed last; constructing a [LocalAdapter]
    leaves the organization as it was. *)
Theorem openai_config_is_shared (cfg : OpenAIConfig)
    (base_url model api_key : string) (allow_system : bool)
    (api_key' model' : string) (organization' base_url' : option string) :
  base_url ≠ "" →
  truthy base_url' = false →
  openai_api_base
    (LocalAdapter.__init__ base_url model api_key allow_system cfg).2
    = Some base_url
  ∧ openai_organization
      (LocalAdapter.__init__ base_url model api_key allow_system cfg).2
    = openai_organization cfg
  ∧ openai_api_base
      (OpenAIAdapter.__init__ api_key' model' organization' base_url'
         (LocalAdapter.__init__ base_url model api_key allow_system cfg).2).2
    = Some base_url
  ∧ openai_api_key
      (OpenAIAdapter.__init__ api_key' model' organization' base_url'
         (LocalAdapter.__init__ base_url model api_key allow_system cfg).2).2
    = api_key'.
Proof.
  intros Hbase Hnone.
  unfold LocalAdapter.__init__, OpenAIAdapter.__init__.
  cbn [truthy fst snd]. rewrite Hnone.
  rewrite (bool_decide_true (base_url ≠ "")) by done.
  repeat split; by destruct (truthy organization').
Qed.

(** After [LocalAdapter("http://localhost:11434/v1")], constructing
    [OpenAIAdapter("sk-live")] leaves the local base URL in force. *)
Lemma openai_config_is_shared_witness :
  openai_api_base
    (OpenAIAdapter.__init__ "sk-live" OpenAIAdapter.default_model None None
       (LocalAdapter.__init__ LocalAdapter.default_base_url
          LocalAdapter.default_model LocalAdapter.default_api_key
          LocalAdapter.default_allow_system fresh_config).2).2
  = Some LocalAdapter.default_base_url.
Proof.
  destruct (openai_config_is_shared fresh_config LocalAdapter.default_base_url
              LocalAdapter.default_model LocalAdapter.default_api_key
              LocalAdapter.default_allow_system "sk-live"
              OpenAIAdapter.default_model None None ltac:(done) eq_refl)
    as (_ & _ & Hbase & _).
  exact Hbase.
Defined.


